(** * GateMessageManager.hh: the message macros of Gate, embedded in Rocq

    The header [source/general/include/GateMessageManager.hh] defines the
    message macros of Gate ([GateMessage] and its variants, [GateWarning],
    [GateError], [GateGlobalError]) and the inline tabulation methods of
    [GateMessageManager] ([GetTab], [IncTab], [DecTab], [ResetTab]).

    The macros are statements that act on process-wide state: the level map
    of the manager, the function-local static string behind [GetTab], the
    standard output stream, and the process itself ([exit], [G4Exception]).
    They are embedded as computations of a small state-and-termination monad
    over a [World]; every side effect is appended to a chronological trace,
    so that both the text written and the order of the effects can be
    stated.

    The header is embedded in the configuration it selects itself:
    [GATE_COMPILE_MESSAGES], [GATE_COMPILE_WARNING_MESSAGES],
    [GATE_COMPILE_ERROR_MESSAGES], [GATE_PREPEND_MESSAGE_WITH_SPACE],
    [GATE_PREPEND_MESSAGE_WITH_TAB] and [GATE_PREPEND_MESSAGE_WITH_CODE] are
    defined; [GATE_COMPILE_DEBUG_MESSAGES] is not, so the [GateDebug*]
    macros expand to nothing. A message argument, written in the source as
    a chain of stream insertions, is the string it inserts. *)

From Stdlib Require Import ZArith Lia String Ascii List.
From stdpp Require Import base option gmap strings pretty.

Local Open Scope string_scope.
Local Open Scope list_scope.
Local Open Scope Z_scope.

(** ** Data model *)

(** The expansion point of a macro: what [__FILE__] and [__LINE__] stand for
    at the call site. *)
Record SourceLoc : Type := MkLoc {
  __FILE__ : string;
  __LINE__ : Z
}.

(** Severity argument of [G4Exception]; the header only ever passes
    [FatalException]. *)
Inductive G4ExceptionSeverity : Type :=
| FatalException.

(** The effects of the statements, recorded in the order they happen. *)
Inductive event : Type :=
| Cout (text : string)
    (* one [std::cout << ... ;] statement and the text it inserts *)
| TabAssign (s : string)
    (* the static string returned by [GetTab()] receives the value [s] *)
| G4ExceptionCall (originOfException exceptionCode : string)
                  (severity : G4ExceptionSeverity) (description : string).

(** [mMessageLevel] is the [std::map<std::string,int>] member of the manager;
    [tab] is the [static std::string s] inside [GetTab]. The other members
    ([mMessageHelp], [mMaxMessageLength], [mAllLevel], [mEnableG4Message],
    [pMessenger]) are not touched by any code of the header. *)
Record World : Type := MkWorld {
  mMessageLevel : gmap string Z;
  tab : string;
  trace : list event
}.

(** How a process stops other than by running on. *)
Inductive stop : Type :=
| Exited (status : Z)          (* [exit(status)] *)
| Aborted                      (* fatal [G4Exception] *)
| Uncaught (what : string).    (* a C++ exception nobody catches *)

Inductive outcome (A : Type) : Type :=
| Running (a : A) (w : World)
| Stopped (s : stop) (w : World).
Arguments Running {A} a w.
Arguments Stopped {A} s w.

(** ** The monad of statements *)

Definition M (A : Type) : Type := World -> outcome A.

#[global] Instance M_ret : MRet M := λ A a w, Running a w.

#[global] Instance M_bind : MBind M := λ A B f m w,
  match m w with
  | Running a w' => f a w'
  | Stopped s w' => Stopped s w'
  end.

Definition world_of {A} (o : outcome A) : World :=
  match o with
  | Running _ w => w
  | Stopped _ w => w
  end.

Definition log (e : event) (w : World) : World :=
  MkWorld (mMessageLevel w) (tab w) (trace w ++ [e]).

(** [std::cout << text;] *)
Definition cout (text : string) : M unit :=
  λ w, Running tt (log (Cout text) w).

(** [exit(status);] never returns. *)
Definition exit (status : Z) : M unit :=
  λ w, Stopped (Exited status) w.

Definition throw (what : string) : M unit :=
  λ w, Stopped (Uncaught what) w.

(** [#define Gateendl std::endl] *)
Definition Gateendl : string := String (ascii_of_nat 10) EmptyString.

(** Formatting of an [int] by [operator<<]. *)
Definition show_int (z : Z) : string := pretty z.

(** ** Functions declared in the header but defined elsewhere *)

(** Modelled from the spec: [GateMessageManager::GetMessageLevel] is only
    declared in the header (its body is in the .cc file). The spec, 4.1:
    [GetLevel(key) -> level | NotFound] "returns the current threshold, or a
    sentinel indicating the category was never registered"; the macro
    [GateOnMessageLevel] tests the sentinel with [< 0]. *)
Definition GetMessageLevel (key : string) : M Z :=
  λ w, Running (default (-1) (mMessageLevel w !! key)) w.

Fixpoint spaces (n : nat) : string :=
  match n with
  | O => EmptyString
  | S n' => String " " (spaces n')
  end.

(** Modelled from the spec: [GateMessageManager::GetSpace(int n)] is only
    declared in the header. The header's comment on
    [GATE_PREPEND_MESSAGE_WITH_SPACE] says messages are "preprended by as
    many spaces as the message level"; the spec calls it the optional
    indentation prefix of the composed message. It is a function of [n]
    alone. *)
Definition GetSpace (n : Z) : string := spaces (Z.to_nat n).

(** Modelled from the spec: [G4Exception] belongs to the host toolkit. With
    severity [FatalException] the host reports the exception and aborts the
    process (spec 4.4: "terminate the process through the host's
    fatal-exception/abort mechanism"). *)
Definition G4Exception (originOfException exceptionCode : string)
    (severity : G4ExceptionSeverity) (description : string) : M unit :=
  λ w, Stopped Aborted
         (log (G4ExceptionCall originOfException exceptionCode
                               severity description) w).

(** ** The tabulation: inline static methods of [GateMessageManager] *)

(** [size_t] arithmetic: 64-bit unsigned, wrapping. *)
Definition size_t_bits : Z := 64.
Definition size_t_wrap (z : Z) : Z := z mod 2 ^ size_t_bits.

(** [std::string::substr(pos, count)]: throws [std::out_of_range] when
    [pos > size()] (here [None]); otherwise the characters
    [pos, pos + min(count, size() - pos)). *)
Definition substr (s : string) (pos count : Z) : option string :=
  let size := Z.of_nat (String.length s) in
  if size <? pos then None
  else Some (String.substring (Z.to_nat pos)
                              (Z.to_nat (Z.min count (size - pos))) s).

(** [static std::string& GetTab() { static std::string s; return s; }]
    The reference is read with [GetTab] and written with [SetTab]. *)
Definition GetTab : M string := λ w, Running (tab w) w.

Definition SetTab (s : string) : M unit :=
  λ w, Running tt (MkWorld (mMessageLevel w) s (trace w ++ [TabAssign s])).

(** [static void IncTab() { GetTab() += std::string("   "); }] *)
Definition IncTab : M unit :=
  t ← GetTab; SetTab (t +:+ "   ").

(** [static void DecTab()
      { GetTab() = GetTab().substr(0,GetTab().length()-3); }]
    [length()] is a [size_t], so [length()-3] wraps below 3. *)
Definition DecTab : M unit :=
  t ← GetTab;
  match substr t 0 (size_t_wrap (Z.of_nat (String.length t) - 3)) with
  | Some t' => SetTab t'
  | None => throw "std::out_of_range"
  end.

(** [static void ResetTab() { GetTab() = std::string(""); }] *)
Definition ResetTab : M unit := SetTab "".

(** ** The macros *)

(** [#define GateWarning(MESSAGE)] *)
Definition GateWarning (loc : SourceLoc) (MESSAGE : string) : M unit :=
  lev ← GetMessageLevel "Warning";
  if 0 <? lev then
    cout (" <!> *** WARNING *** <!>  " +:+ MESSAGE +:+ Gateendl);;
    if 1 <? lev then
      cout (" <!> *** WARNING *** <!>  In file '" +:+ __FILE__ loc
            +:+ "' ; Line " +:+ show_int (__LINE__ loc) +:+ Gateendl)
    else mret tt
  else mret tt.

(** [#define GateOnMessageLevel(key,value)]: the macro opens an
    [if ... else if (...)] whose last branch is the statement that follows
    it, here [body]. *)
Definition GateOnMessageLevel (loc : SourceLoc) (key : string) (value : Z)
    (body : M unit) : M unit :=
  __GateOnMessageLevelVariable ← GetMessageLevel key;
  if __GateOnMessageLevelVariable <? 0 then
    GateWarning loc ("message type '" +:+ key +:+ "' unknown")
  else if value <=? __GateOnMessageLevelVariable then body
  else mret tt.

(** [#define GateMessageCode(key, value)], with
    [GATE_PREPEND_MESSAGE_WITH_CODE] defined. *)
Definition GateMessageCode (key : string) (value : Z) : string :=
  "[" +:+ key +:+ "-" +:+ show_int value +:+ "] ".

(** [#define GateMessageTab], with [GATE_PREPEND_MESSAGE_WITH_TAB] defined. *)
Definition GateMessageTab : M string := GetTab.

(** [#define GateMessageSpace(value)], with
    [GATE_PREPEND_MESSAGE_WITH_SPACE] defined. *)
Definition GateMessageSpace (value : Z) : string := GetSpace value.

(** The text of [GateMessageCode(key,value) << GateMessageSpace(value)
    << MESSAGE]. *)
Definition message_text (key : string) (value : Z) (MESSAGE : string)
  : string :=
  GateMessageCode key value +:+ GateMessageSpace value +:+ MESSAGE.

(** [#define GateMessage(key,value,MESSAGE)] *)
Definition GateMessage (loc : SourceLoc) (key : string) (value : Z)
    (MESSAGE : string) : M unit :=
  GateOnMessageLevel loc key value
    (cout (message_text key value MESSAGE)).

(** [#define GateMessageCont(key,value,MESSAGE)] *)
Definition GateMessageCont (loc : SourceLoc) (key : string) (value : Z)
    (MESSAGE : string) : M unit :=
  GateOnMessageLevel loc key value
    (cout MESSAGE).

(** [#define GateMessageInc(key,value,MESSAGE)] *)
Definition GateMessageInc (loc : SourceLoc) (key : string) (value : Z)
    (MESSAGE : string) : M unit :=
  GateOnMessageLevel loc key value
    (cout (message_text key value MESSAGE);;
     IncTab).

(** [#define GateMessageDec(key,value,MESSAGE)] *)
Definition GateMessageDec (loc : SourceLoc) (key : string) (value : Z)
    (MESSAGE : string) : M unit :=
  GateOnMessageLevel loc key value
    (DecTab;;
     cout (message_text key value MESSAGE)).

(** [#define GateDecTab(key,value)] *)
Definition GateDecTab (loc : SourceLoc) (key : string) (value : Z) : M unit :=
  GateOnMessageLevel loc key value DecTab.

(** [#define GateIncTab(key,value)] *)
Definition GateIncTab (loc : SourceLoc) (key : string) (value : Z) : M unit :=
  GateOnMessageLevel loc key value IncTab.

(** [#define GateResetTab()] *)
Definition GateResetTab : M unit := ResetTab.

(** C's [strrchr(s, c)]: the suffix of [s] that starts at the last
    occurrence of [c], if there is one. *)
Fixpoint strrchr (s : string) (c : ascii) : option string :=
  match s with
  | EmptyString => None
  | String a s' =>
      match strrchr s' c with
      | Some r => Some r
      | None => if Ascii.eqb a c then Some s else None
      end
  end.

(** [#define __SHORT_FILE__
      (strrchr(__FILE__, '/') ? strrchr(__FILE__, '/') + 1 : __FILE__)] *)
Definition __SHORT_FILE__ (loc : SourceLoc) : string :=
  match strrchr (__FILE__ loc) "/" with
  | Some (String _ r) => r
  | Some EmptyString => EmptyString
  | None => __FILE__ loc
  end.

(** [#define GateError(MESSAGE)] *)
Definition GateError (loc : SourceLoc) (MESSAGE : string) : M unit :=
  let str_f := __SHORT_FILE__ loc +:+ " (l." +:+ show_int (__LINE__ loc)
               +:+ "): " in
  let str_s := MESSAGE in
  cout (str_f +:+ str_s +:+ Gateendl);;
  exit (-1);;
  G4Exception str_f str_s FatalException " ".

(** [#define GateGlobalError(MESSAGE)] *)
Definition GateGlobalError (loc : SourceLoc) (MESSAGE : string) : M unit :=
  let str_f := __SHORT_FILE__ loc +:+ " (l." +:+ show_int (__LINE__ loc)
               +:+ ")" in
  let str_s := MESSAGE in
  G4Exception str_f str_s FatalException " ".

(** ** Observations on runs *)

(** The level the warning macro reads. *)
Definition WarningLevel (w : World) : Z :=
  default (-1) (mMessageLevel w !! "Warning").

(** The line [GateOnMessageLevel] hands to [GateWarning] for an unknown
    [key], as it appears on the output. *)
Definition unknown_warning_text (key : string) : string :=
  " <!> *** WARNING *** <!>  " +:+ ("message type '" +:+ key +:+ "' unknown")
  +:+ Gateendl.

(** The lines one [GateWarning(MESSAGE)] puts on the output when the
    "Warning" level is [lev]. *)
Definition warning_lines (loc : SourceLoc) (lev : Z) (MESSAGE : string)
  : list string :=
  if 0 <? lev then
    (" <!> *** WARNING *** <!>  " +:+ MESSAGE +:+ Gateendl)
    :: (if 1 <? lev then
          [" <!> *** WARNING *** <!>  In file '" +:+ __FILE__ loc
           +:+ "' ; Line " +:+ show_int (__LINE__ loc) +:+ Gateendl]
        else [])
  else [].

Definition is_unknown_warning (key : string) (e : event) : bool :=
  match e with
  | Cout text => String.eqb text (unknown_warning_text key)
  | _ => false
  end.

(** Number of "message type unknown" warnings for [key] on the output. *)
Definition count_unknown_warnings (key : string) (tr : list event) : nat :=
  length (filter (λ e, is_unknown_warning key e = true) tr).

(** The texts written to [std::cout], in order. *)
Fixpoint couts (tr : list event) : list string :=
  match tr with
  | [] => []
  | Cout text :: tr' => text :: couts tr'
  | _ :: tr' => couts tr'
  end.

(** The calls of the structured fatal-exception mechanism. *)
Fixpoint g4_calls (tr : list event) : list event :=
  match tr with
  | [] => []
  | G4ExceptionCall o c s d :: tr' => G4ExceptionCall o c s d :: g4_calls tr'
  | _ :: tr' => g4_calls tr'
  end.

(** The same statement [n] times in a row. *)
Fixpoint repeat_call (n : nat) (m : M unit) : M unit :=
  match n with
  | O => mret tt
  | S n' => m;; repeat_call n' m
  end.

(** Calls on the indentation tracker. *)
Inductive tab_call : Type :=
| Increment
| Decrement.

Definition run_call (c : tab_call) : M unit :=
  match c with
  | Increment => IncTab
  | Decrement => DecTab
  end.

Fixpoint run_calls (cs : list tab_call) : M unit :=
  match cs with
  | [] => mret tt
  | c :: cs' => run_call c;; run_calls cs'
  end.

(** The depth of the tabulation: the number of whole 3-space units. *)
Definition depth (w : World) : Z := Z.of_nat (String.length (tab w)) / 3.

(** The depth counter the spec describes (4.3): [Increment] adds one unit,
    [Decrement] removes one and clamps at zero. *)
Definition depth_step (d : Z) (c : tab_call) : Z :=
  match c with
  | Increment => d + 1
  | Decrement => Z.max 0 (d - 1)
  end.

Definition depth_after (d : Z) (cs : list tab_call) : Z :=
  fold_left depth_step cs d.

Definition with_tab (t : string) (w : World) : World :=
  MkWorld (mMessageLevel w) t (trace w).

(** ** The remaining macro of the header *)

(** [#define DD(a)
      GateMessage("Core", 0 , #a " = [ " << a << " ]" << Gateendl);]
    [a_text] is the spelling of the argument ([#a]) and [a_value] the text
    that inserting its value gives. *)
Definition DD (loc : SourceLoc) (a_text a_value : string) : M unit :=
  GateMessage loc "Core" 0
    (a_text +:+ " = [ " +:+ a_value +:+ " ]" +:+ Gateendl).

(** ** Sequences of macro calls *)

(** The calls a client can make that are not fatal errors. *)
Inductive call : Type :=
| CallMessage (key : string) (value : Z) (MESSAGE : string)
| CallMessageCont (key : string) (value : Z) (MESSAGE : string)
| CallMessageInc (key : string) (value : Z) (MESSAGE : string)
| CallMessageDec (key : string) (value : Z) (MESSAGE : string)
| CallIncTab (key : string) (value : Z)
| CallDecTab (key : string) (value : Z)
| CallResetTab
| CallWarning (MESSAGE : string).

Definition exec (loc : SourceLoc) (c : call) : M unit :=
  match c with
  | CallMessage key value MESSAGE => GateMessage loc key value MESSAGE
  | CallMessageCont key value MESSAGE => GateMessageCont loc key value MESSAGE
  | CallMessageInc key value MESSAGE => GateMessageInc loc key value MESSAGE
  | CallMessageDec key value MESSAGE => GateMessageDec loc key value MESSAGE
  | CallIncTab key value => GateIncTab loc key value
  | CallDecTab key value => GateDecTab loc key value
  | CallResetTab => GateResetTab
  | CallWarning MESSAGE => GateWarning loc MESSAGE
  end.

(** A program: calls with their call sites, run one after the other. *)
Fixpoint exec_all (prog : list (SourceLoc * call)) : M unit :=
  match prog with
  | [] => mret tt
  | (loc, c) :: prog' => exec loc c;; exec_all prog'
  end.

(** The text on standard output: the insertions, concatenated. *)
Definition stdout (tr : list event) : string :=
  fold_right String.append "" (couts tr).

(** Which branch of [GateOnMessageLevel] a call takes. *)
Inductive verdict : Type :=
| Pass        (* the guarded statement runs *)
| Filtered    (* nothing runs *)
| Unknown.    (* the warning runs *)

Definition gate_verdict (w : World) (key : string) (value : Z) : verdict :=
  let lvl := default (-1) (mMessageLevel w !! key) in
  if lvl <? 0 then Unknown
  else if value <=? lvl then Pass
  else Filtered.

(** A statement that returns normally, leaves the level map alone and only
    appends to the trace. *)
Definition runs_on (m : M unit) : Prop :=
  ∀ w, ∃ w' new,
    m w = Running tt w'
    ∧ mMessageLevel w' = mMessageLevel w
    ∧ trace w' = trace w ++ new.

(** Worlds with the same levels and the same output so far; the tabulation
    may differ. *)
Definition same_output (w1 w2 : World) : Prop :=
  mMessageLevel w1 = mMessageLevel w2
  ∧ couts (trace w1) = couts (trace w2).

(** A statement whose output cannot tell two tabulations apart. *)
Definition tab_blind (m : M unit) : Prop :=
  ∀ w1 w2, same_output w1 w2 →
    ∃ w1' w2', m w1 = Running tt w1' ∧ m w2 = Running tt w2'
               ∧ same_output w1' w2'.

(** A statement that keeps the tabulation a whole number of 3-space units
    and adds at most one. *)
Definition keeps_units (m : M unit) : Prop :=
  ∀ d w, tab w = spaces (3 * d) → 3 * Z.of_nat d < 2 ^ size_t_bits →
    ∃ w' k, m w = Running tt w'
            ∧ tab w' = spaces (3 * k) ∧ (k ≤ d + 1)%nat.

(** ** Sample call sites and worlds *)

Definition here : SourceLoc :=
  MkLoc "source/digits_hits/src/GateActor.cc" 42.

(** "Core" at level 5, warnings at level 1. *)
Definition w_core : World :=
  MkWorld {[ "Core" := 5; "Warning" := 1 ]} "" [].

(** "Core" at level 5, warnings with file and line. *)
Definition w_verbose : World :=
  MkWorld {[ "Core" := 5; "Warning" := 2 ]} "" [].

(** "Core" at level 5, the "Warning" type never registered. *)
Definition w_nowarn : World :=
  MkWorld {[ "Core" := 5 ]} "" [].

(** "Core" raised to level 7. *)
Definition w_deep : World :=
  MkWorld {[ "Core" := 7; "Warning" := 1 ]} "" [].

(** * Properties *)

Ltac run :=
  unfold mbind, M_bind, mret, M_ret, cout, exit, throw, GetTab, SetTab, log;
  simpl.

(** ** The level lookup *)

Lemma GetMessageLevel_registered key T w :
  mMessageLevel w !! key = Some T →
  GetMessageLevel key w = Running T w.
Proof. intros H. unfold GetMessageLevel. by rewrite H. Qed.

Lemma GetMessageLevel_unregistered key w :
  mMessageLevel w !! key = None →
  GetMessageLevel key w = Running (-1) w.
Proof. intros H. unfold GetMessageLevel. by rewrite H. Qed.

Lemma GetMessageLevel_WarningLevel w :
  GetMessageLevel "Warning" w = Running (WarningLevel w) w.
Proof. reflexivity. Qed.

Lemma log_neq e w : log e w ≠ w.
Proof.
  intros H. apply (f_equal (λ x, length (trace x))) in H.
  unfold log in H. simpl in H. rewrite length_app in H. simpl in H. lia.
Qed.

(** ** The level filter *)

Section filter.
Variables (loc : SourceLoc) (key : string) (value : Z) (body : M unit).
Variable w : World.

Lemma GateOnMessageLevel_pass T :
  mMessageLevel w !! key = Some T → 0 ≤ T → value ≤ T →
  GateOnMessageLevel loc key value body w = body w.
Proof.
  intros H HT Hle. unfold GateOnMessageLevel, mbind, M_bind.
  rewrite (GetMessageLevel_registered _ _ _ H).
  destruct (Z.ltb_spec T 0); [lia|].
  destruct (Z.leb_spec value T); [done|lia].
Qed.

Lemma GateOnMessageLevel_block T :
  mMessageLevel w !! key = Some T → 0 ≤ T → T < value →
  GateOnMessageLevel loc key value body w = Running tt w.
Proof.
  intros H HT Hlt. unfold GateOnMessageLevel, mbind, M_bind.
  rewrite (GetMessageLevel_registered _ _ _ H).
  destruct (Z.ltb_spec T 0); [lia|].
  destruct (Z.leb_spec value T); [lia|done].
Qed.

Lemma GateOnMessageLevel_unknown :
  mMessageLevel w !! key = None →
  GateOnMessageLevel loc key value body w
  = GateWarning loc ("message type '" +:+ key +:+ "' unknown") w.
Proof.
  intros H. unfold GateOnMessageLevel, mbind, M_bind.
  by rewrite (GetMessageLevel_unregistered _ _ H).
Qed.
End filter.

(** ** The warning macro *)

Section warning.
Variables (loc : SourceLoc) (MESSAGE : string) (w : World).

Lemma GateWarning_off :
  WarningLevel w ≤ 0 → GateWarning loc MESSAGE w = Running tt w.
Proof.
  intros H. unfold GateWarning, mbind, M_bind.
  rewrite GetMessageLevel_WarningLevel.
  by destruct (Z.ltb_spec 0 (WarningLevel w)); [lia|].
Qed.

Lemma GateWarning_text_only :
  WarningLevel w = 1 →
  GateWarning loc MESSAGE w
  = Running tt
      (log (Cout (" <!> *** WARNING *** <!>  " +:+ MESSAGE +:+ Gateendl)) w).
Proof.
  intros H. unfold GateWarning, mbind, M_bind.
  rewrite GetMessageLevel_WarningLevel, H. reflexivity.
Qed.

Lemma GateWarning_with_location :
  2 ≤ WarningLevel w →
  GateWarning loc MESSAGE w
  = Running tt
      (log (Cout (" <!> *** WARNING *** <!>  In file '" +:+ __FILE__ loc
                  +:+ "' ; Line " +:+ show_int (__LINE__ loc) +:+ Gateendl))
        (log (Cout (" <!> *** WARNING *** <!>  " +:+ MESSAGE +:+ Gateendl))
           w)).
Proof.
  intros H. unfold GateWarning, mbind, M_bind.
  rewrite GetMessageLevel_WarningLevel.
  destruct (Z.ltb_spec 0 (WarningLevel w)); [|lia].
  destruct (Z.ltb_spec 1 (WarningLevel w)); [|lia].
  reflexivity.
Qed.

Lemma GateWarning_runs_on :
  ∃ w', GateWarning loc MESSAGE w = Running tt w'
        ∧ mMessageLevel w' = mMessageLevel w ∧ tab w' = tab w.
Proof.
  destruct (Z.le_gt_cases (WarningLevel w) 0) as [H0|H0].
  { exists w. by rewrite GateWarning_off. }
  destruct (Z.eq_dec (WarningLevel w) 1) as [H1|H1].
  { eexists. by rewrite GateWarning_text_only. }
  eexists. rewrite GateWarning_with_location by lia. done.
Qed.
End warning.

(** ** The informational channel *)

(** C1. For a key registered with threshold [T] (a level, so not negative),
    [GateMessage(key, L, MESSAGE)] writes the composed message exactly when
    [L <= T], equality included, and leaves the world as it was exactly when
    [T < L]. *)
Theorem GateMessage_emits_iff_le loc key T L MESSAGE w :
  mMessageLevel w !! key = Some T → 0 ≤ T →
  (GateMessage loc key L MESSAGE w
   = Running tt (log (Cout (message_text key L MESSAGE)) w) ↔ L ≤ T)
  ∧ (GateMessage loc key L MESSAGE w = Running tt w ↔ T < L).
Proof.
  intros Hreg HT. unfold GateMessage.
  destruct (Z.le_gt_cases L T) as [Hle|Hgt].
  - rewrite (GateOnMessageLevel_pass _ _ _ _ _ T) by done.
    split; split; try done; try lia.
    unfold cout. intros H. injection H as H. by apply log_neq in H.
  - rewrite (GateOnMessageLevel_block _ _ _ _ _ T) by (done || lia).
    split; split; try done; try lia.
    intros H. injection H as H. symmetry in H. by apply log_neq in H.
Qed.

Lemma GateMessage_emits_iff_le_witness :
  mMessageLevel w_core !! "Core" = Some 5 ∧ 0 ≤ 5
  ∧ (GateMessage here "Core" 5 "hello" w_core
     = Running tt (log (Cout (message_text "Core" 5 "hello")) w_core) ↔ 5 ≤ 5)
  ∧ (GateMessage here "Core" 5 "hello" w_core = Running tt w_core ↔ 5 < 5).
Proof.
  split; [reflexivity|]. split; [lia|].
  apply (GateMessage_emits_iff_le here "Core" 5 5 "hello" w_core);
    [reflexivity|lia].
Defined.

(** The scenario of the spec, 8: "Core" at 5 lets level 5 through and stops
    level 6. *)
Example Core_scenario :
  couts (trace (world_of
    ((GateMessage here "Core" 5 "five";; GateMessage here "Core" 6 "six")
       w_core)))
  = ["[Core-5]      five"].
Proof. reflexivity. Qed.

(** ** The warning channel *)

(** C4. With the "Warning" entry at level [lev]: level 0 writes nothing;
    from level 1 on the message is written behind the WARNING marker; from
    level 2 on a second line names the file and the line of the call site;
    and the process runs on in every case. *)
Theorem GateWarning_levels loc MESSAGE lev w :
  mMessageLevel w !! "Warning" = Some lev →
  (lev = 0 → GateWarning loc MESSAGE w = Running tt w)
  ∧ (1 ≤ lev →
     ∃ w', GateWarning loc MESSAGE w = Running tt w'
       ∧ ∃ rest, trace w' =
           trace w
           ++ Cout (" <!> *** WARNING *** <!>  " +:+ MESSAGE +:+ Gateendl)
              :: rest
         ∧ (lev = 1 → rest = [])
         ∧ (2 ≤ lev →
            rest = [Cout (" <!> *** WARNING *** <!>  In file '"
                          +:+ __FILE__ loc +:+ "' ; Line "
                          +:+ show_int (__LINE__ loc) +:+ Gateendl)]))
  ∧ (∃ w', GateWarning loc MESSAGE w = Running tt w').
Proof.
  intros Hreg.
  assert (Hlev : WarningLevel w = lev) by (unfold WarningLevel; by rewrite Hreg).
  split; [|split].
  - intros ->. apply GateWarning_off. lia.
  - intros H1. destruct (Z.eq_dec lev 1) as [->|Hne].
    + eexists. split; [by apply GateWarning_text_only|].
      exists []. simpl. split; [done|]. split; [done|lia].
    + eexists. split; [apply GateWarning_with_location; lia|].
      eexists. simpl. rewrite <- app_assoc. simpl. split; [done|].
      split; [lia|done].
  - destruct (GateWarning_runs_on loc MESSAGE w) as (w' & H & _). eauto.
Qed.

Lemma GateWarning_levels_witness :
  mMessageLevel w_verbose !! "Warning" = Some 2
  ∧ couts (trace (world_of (GateWarning here "careful" w_verbose)))
    = [" <!> *** WARNING *** <!>  careful" +:+ Gateendl;
       " <!> *** WARNING *** <!>  In file 'source/digits_hits/src/GateActor.cc' ; Line 42"
       +:+ Gateendl]
  ∧ ∃ w', GateWarning here "careful" w_verbose = Running tt w'.
Proof.
  split; [reflexivity|]. split; [reflexivity|].
  apply (GateWarning_levels here "careful" 2 w_verbose). reflexivity.
Defined.

(** C10. When the "Warning" type itself is not registered its lookup gives
    the negative sentinel, no warning call writes anything, and so a
    message, continuation, increment or decrement call for an unregistered
    key leaves the world exactly as it was. *)
Theorem unregistered_Warning_is_silent loc w :
  mMessageLevel w !! "Warning" = None →
  (∃ lev, GetMessageLevel "Warning" w = Running lev w ∧ lev < 0)
  ∧ (∀ MESSAGE, GateWarning loc MESSAGE w = Running tt w)
  ∧ (∀ key L MESSAGE, mMessageLevel w !! key = None →
       GateMessage loc key L MESSAGE w = Running tt w
       ∧ GateMessageCont loc key L MESSAGE w = Running tt w
       ∧ GateMessageInc loc key L MESSAGE w = Running tt w
       ∧ GateMessageDec loc key L MESSAGE w = Running tt w
       ∧ GateIncTab loc key L w = Running tt w
       ∧ GateDecTab loc key L w = Running tt w).
Proof.
  intros Hw.
  assert (Hoff : ∀ MESSAGE, GateWarning loc MESSAGE w = Running tt w).
  { intros MESSAGE. apply GateWarning_off. unfold WarningLevel.
    rewrite Hw. simpl. lia. }
  split; [|split].
  - exists (-1). split; [by apply GetMessageLevel_unregistered|lia].
  - exact Hoff.
  - intros key L MESSAGE Hkey.
    unfold GateMessage, GateMessageCont, GateMessageInc, GateMessageDec,
      GateIncTab, GateDecTab.
    rewrite !GateOnMessageLevel_unknown by done.
    rewrite Hoff. done.
Qed.

Lemma unregistered_Warning_is_silent_witness :
  mMessageLevel w_nowarn !! "Warning" = None
  ∧ mMessageLevel w_nowarn !! "Physics" = None
  ∧ GateMessage here "Physics" 0 "lost" w_nowarn = Running tt w_nowarn.
Proof.
  split; [reflexivity|]. split; [reflexivity|].
  apply (unregistered_Warning_is_silent here w_nowarn); reflexivity.
Defined.

(** ** Unknown message types *)

Lemma GateWarning_trace loc MESSAGE w :
  GateWarning loc MESSAGE w
  = Running tt
      (MkWorld (mMessageLevel w) (tab w)
         (trace w ++ map Cout (warning_lines loc (WarningLevel w) MESSAGE))).
Proof.
  unfold GateWarning, mbind, M_bind, warning_lines.
  rewrite GetMessageLevel_WarningLevel.
  destruct (0 <? WarningLevel w); [destruct (1 <? WarningLevel w)|]; run.
  - by rewrite <- app_assoc.
  - done.
  - rewrite app_nil_r. by destruct w.
Qed.

Lemma count_unknown_warnings_app key tr1 tr2 :
  count_unknown_warnings key (tr1 ++ tr2)
  = (count_unknown_warnings key tr1 + count_unknown_warnings key tr2)%nat.
Proof.
  unfold count_unknown_warnings. by rewrite filter_app, length_app.
Qed.

Lemma count_unknown_warnings_one_call loc lev key :
  count_unknown_warnings key
    (map Cout (warning_lines loc lev ("message type '" +:+ key +:+ "' unknown")))
  = if 0 <? lev then 1%nat else 0%nat.
Proof.
  unfold warning_lines, count_unknown_warnings.
  destruct (0 <? lev); [|done].
  assert (Hfirst : is_unknown_warning key
            (Cout (" <!> *** WARNING *** <!>  "
                   +:+ ("message type '" +:+ key +:+ "' unknown")
                   +:+ Gateendl)) = true).
  { unfold is_unknown_warning, unknown_warning_text. apply String.eqb_refl. }
  destruct (1 <? lev); simpl map.
  - rewrite filter_cons_True by exact Hfirst.
    rewrite filter_cons_False; [done|].
    unfold is_unknown_warning, unknown_warning_text. simpl. congruence.
  - by rewrite filter_cons_True by exact Hfirst.
Qed.

(** C2, as the code has it. A message call for a key that was never
    registered never writes its message and never stops the process; it
    hands "message type 'key' unknown" to the warning macro, on every call.
    So [n] calls in a row leave the level map and the tabulation alone,
    write [n] times the lines of that warning and nothing else, and the
    number of "message type unknown" warnings on the output grows by [n]
    when the "Warning" level is at least 1, and by none when it is not. *)
Theorem unknown_key_warns_on_every_call loc key L MESSAGE n w :
  mMessageLevel w !! key = None →
  ∃ w', repeat_call n (GateMessage loc key L MESSAGE) w = Running tt w'
    ∧ mMessageLevel w' = mMessageLevel w
    ∧ tab w' = tab w
    ∧ trace w' =
        trace w
        ++ concat (replicate n
             (map Cout (warning_lines loc (WarningLevel w)
                          ("message type '" +:+ key +:+ "' unknown"))))
    ∧ count_unknown_warnings key (trace w')
      = (count_unknown_warnings key (trace w)
         + if (0 <? WarningLevel w)%Z then n else 0)%nat.
Proof.
  revert w. induction n as [|n IH]; intros w Hkey.
  - exists w. simpl. rewrite app_nil_r.
    repeat split; try done. destruct (0 <? WarningLevel w); lia.
  - simpl repeat_call. unfold mbind at 1, M_bind at 1.
    unfold GateMessage at 1. rewrite GateOnMessageLevel_unknown by done.
    rewrite GateWarning_trace.
    set (w1 := MkWorld _ _ _).
    destruct (IH w1) as (w' & Hrun & Hlev & Htab & Htr & Hcnt); [done|].
    assert (HW : WarningLevel w1 = WarningLevel w) by done.
    exists w'. rewrite HW in Htr, Hcnt.
    split; [done|]. split; [done|]. split; [done|]. split.
    + rewrite Htr. simpl. by rewrite <- app_assoc.
    + rewrite Hcnt. unfold w1. simpl trace.
      rewrite count_unknown_warnings_app, count_unknown_warnings_one_call.
      destruct (0 <? WarningLevel w); lia.
Qed.

Lemma unknown_key_warns_on_every_call_witness :
  mMessageLevel w_core !! "Physics" = None
  ∧ ∃ w', repeat_call 3 (GateMessage here "Physics" 0 "lost") w_core
          = Running tt w'
    ∧ mMessageLevel w' = mMessageLevel w_core
    ∧ tab w' = tab w_core
    ∧ trace w' =
        trace w_core
        ++ concat (replicate 3
             (map Cout (warning_lines here (WarningLevel w_core)
                          ("message type '" +:+ "Physics" +:+ "' unknown"))))
    ∧ count_unknown_warnings "Physics" (trace w')
      = (count_unknown_warnings "Physics" (trace w_core)
         + if (0 <? WarningLevel w_core)%Z then 3 else 0)%nat.
Proof.
  split; [reflexivity|].
  apply (unknown_key_warns_on_every_call here "Physics" 0 "lost" 3 w_core).
  reflexivity.
Defined.

(** C2, as stated, fails: two message calls for the same unregistered key
    put two "message type unknown" warnings on the output, not one. *)
Lemma two_calls_warn_twice :
  mMessageLevel w_core !! "Physics" = None
  ∧ couts (trace (world_of
      (repeat_call 2 (GateMessage here "Physics" 0 "lost") w_core)))
    = [unknown_warning_text "Physics"; unknown_warning_text "Physics"]
  ∧ count_unknown_warnings "Physics"
      (trace (world_of
         (repeat_call 2 (GateMessage here "Physics" 0 "lost") w_core)))
    = 2%nat.
Proof. repeat split; vm_compute; reflexivity. Qed.

(** ** The tabulation and the composed message *)

(** What a message call writes does not depend on the tabulation: no macro
    of the header inserts [GateMessageTab] into the stream. *)
Lemma GateMessage_text_ignores_tab loc key value MESSAGE t w :
  couts (trace (world_of (GateMessage loc key value MESSAGE (with_tab t w))))
  = couts (trace (world_of (GateMessage loc key value MESSAGE w))).
Proof.
  destruct w as [levels t0 tr].
  unfold GateMessage, GateOnMessageLevel, GateWarning, GetMessageLevel,
    with_tab.
  run.
  destruct (default (-1) (levels !! key) <? 0).
  - cbn [mMessageLevel].
    destruct (0 <? default (-1) (levels !! "Warning")); [|reflexivity].
    cbn [mMessageLevel].
    destruct (1 <? default (-1) (levels !! "Warning")); reflexivity.
  - destruct (value <=? default (-1) (levels !! key)); reflexivity.
Qed.

(** C3, evaluated on the code. After three [IncTab] calls the tabulation
    holds three units (nine spaces), yet [GateMessage("Core", 0, "hello")]
    writes "[Core-0] hello": the same text as with no [IncTab] at all, and
    the same again after [ResetTab]. *)
Theorem three_IncTab_message_has_no_tab_prefix :
  ∃ w3, (IncTab;; IncTab;; IncTab) w_core = Running tt w3
    ∧ tab w3 = "         "
    ∧ couts (trace (world_of (GateMessage here "Core" 0 "hello" w3)))
      = ["[Core-0] hello"]
    ∧ couts (trace (world_of (GateMessage here "Core" 0 "hello" w_core)))
      = ["[Core-0] hello"]
    ∧ couts (trace (world_of
        ((GateResetTab;; GateMessage here "Core" 0 "hello") w3)))
      = ["[Core-0] hello"].
Proof. eexists. repeat split; reflexivity. Qed.

(** ** The fatal-error channel *)

Lemma strrchr_spec c s :
  match strrchr s c with
  | Some r => ∃ pre r', r = String c r' ∧ s = pre +:+ r
                        ∧ ¬ In c (list_ascii_of_string r')
  | None => ¬ In c (list_ascii_of_string s)
  end.
Proof.
  induction s as [|a s IH]; simpl; [tauto|].
  destruct (strrchr s c) as [r|].
  - destruct IH as (pre & r' & -> & -> & Hnot).
    exists (String a pre), r'. done.
  - destruct (Ascii.eqb_spec a c) as [->|Hne].
    + exists "", s. done.
    + intros [?|?]; tauto.
Qed.

(** [__SHORT_FILE__] is the file name with its directories stripped: what
    follows the last '/' of [__FILE__], or all of it when there is none. *)
Lemma SHORT_FILE_is_basename loc :
  ¬ In "/"%char (list_ascii_of_string (__SHORT_FILE__ loc))
  ∧ (__SHORT_FILE__ loc = __FILE__ loc
     ∨ ∃ dir, __FILE__ loc = dir +:+ "/" +:+ __SHORT_FILE__ loc).
Proof.
  unfold __SHORT_FILE__.
  pose proof (strrchr_spec "/" (__FILE__ loc)) as H.
  destruct (strrchr (__FILE__ loc) "/") as [r|].
  - destruct H as (pre & r' & -> & Hfile & Hnot).
    split; [done|]. right. by exists pre.
  - split; [done|]. by left.
Qed.

Lemma g4_calls_app tr1 tr2 :
  g4_calls (tr1 ++ tr2) = g4_calls tr1 ++ g4_calls tr2.
Proof.
  induction tr1 as [|e tr1 IH]; [done|].
  destruct e; simpl; by rewrite IH.
Qed.

(** C5. [GateError(MESSAGE)] writes one line to [std::cout], made of the
    base name of the file, the line number and the message, whatever the
    level map holds, and then ends the process with [exit(-1)]. *)
Theorem GateError_writes_once_then_exits loc MESSAGE w :
  GateError loc MESSAGE w
  = Stopped (Exited (-1))
      (log (Cout ((__SHORT_FILE__ loc +:+ " (l." +:+ show_int (__LINE__ loc)
                   +:+ "): ")
                  +:+ MESSAGE +:+ Gateendl)) w)
  ∧ couts (trace (world_of (GateError loc MESSAGE w)))
    = couts (trace w)
      ++ [(__SHORT_FILE__ loc +:+ " (l." +:+ show_int (__LINE__ loc)
           +:+ "): ")
          +:+ MESSAGE +:+ Gateendl]
  ∧ ¬ In "/"%char (list_ascii_of_string (__SHORT_FILE__ loc))
  ∧ (__SHORT_FILE__ loc = __FILE__ loc
     ∨ ∃ dir, __FILE__ loc = dir +:+ "/" +:+ __SHORT_FILE__ loc).
Proof.
  split; [reflexivity|]. split; [|apply SHORT_FILE_is_basename].
  unfold GateError. run.
  induction (trace w) as [|e tr IH]; [done|].
  destruct e; simpl; by rewrite IH.
Qed.

Example GateError_sample :
  GateError here "no such volume" w_nowarn
  = Stopped (Exited (-1))
      (log (Cout ("GateActor.cc (l.42): no such volume" +:+ Gateendl))
         w_nowarn).
Proof. reflexivity. Qed.

(** C6. In [GateError] the call of [G4Exception] comes after [exit(-1)]
    and is never made: the process stops by [exit], and the trace holds no
    call of [G4Exception] that was not there before. *)
Theorem GateError_never_reaches_G4Exception loc MESSAGE w :
  ∃ w', GateError loc MESSAGE w = Stopped (Exited (-1)) w'
    ∧ g4_calls (trace w') = g4_calls (trace w).
Proof.
  eexists. split; [reflexivity|].
  unfold log. simpl. rewrite g4_calls_app. simpl. by rewrite app_nil_r.
Qed.

(** X13. The global-scope macro, for contrast, does reach [G4Exception]:
    [GateGlobalError(MESSAGE)] writes nothing to [std::cout]; it calls
    [G4Exception] once, with the origin "file (l.line)" built from the base
    name of the file, the message as exception code, [FatalException] and
    the description " ", and the process stops there, not by [exit]. *)
Lemma GateGlobalError_reaches_G4Exception loc MESSAGE w :
  ∃ w', GateGlobalError loc MESSAGE w = Stopped Aborted w'
    ∧ g4_calls (trace w')
      = g4_calls (trace w)
        ++ [G4ExceptionCall
              (__SHORT_FILE__ loc +:+ " (l." +:+ show_int (__LINE__ loc)
               +:+ ")")
              MESSAGE FatalException " "]
    ∧ couts (trace w') = couts (trace w).
Proof.
  eexists. split; [reflexivity|]. unfold log. simpl.
  rewrite g4_calls_app. split; [done|].
  induction (trace w) as [|e tr IH]; [done|].
  destruct e; simpl; by rewrite IH.
Qed.

(** ** The indentation tracker *)

Lemma IncTab_run w :
  IncTab w
  = Running tt (MkWorld (mMessageLevel w) (tab w +:+ "   ")
                  (trace w ++ [TabAssign (tab w +:+ "   ")])).
Proof. reflexivity. Qed.

(** [DecTab] never throws: [substr] is called at position 0, which no
    string is shorter than; the wrapped count only bounds the copy. *)
Lemma DecTab_run w :
  ∃ t', DecTab w
        = Running tt (MkWorld (mMessageLevel w) t' (trace w ++ [TabAssign t']))
    ∧ (String.length t' ≤ String.length (tab w))%nat.
Proof.
  unfold DecTab, substr. run.
  destruct (Z.ltb_spec (Z.of_nat (String.length (tab w))) 0) as [H|_]; [lia|].
  eexists. split; [reflexivity|].
  generalize (Z.to_nat
    (Z.min (size_t_wrap (Z.of_nat (String.length (tab w)) - 3))
           (Z.of_nat (String.length (tab w)) - 0))).
  generalize (tab w). clear w. change (Z.to_nat 0) with 0%nat.
  induction s as [|a s IH]; intros [|n]; simpl; try lia.
  specialize (IH n). lia.
Qed.

Lemma DecTab_at_zero w :
  tab w = "" →
  DecTab w
  = Running tt (MkWorld (mMessageLevel w) "" (trace w ++ [TabAssign ""])).
Proof. intros H. unfold DecTab, substr. run. rewrite H. reflexivity. Qed.

Lemma run_call_runs_on c w :
  ∃ w', run_call c w = Running tt w'.
Proof.
  destruct c; simpl.
  - rewrite IncTab_run. eauto.
  - destruct (DecTab_run w) as (t' & -> & _). eauto.
Qed.

Lemma run_calls_runs_on cs w :
  ∃ w', run_calls cs w = Running tt w'.
Proof.
  revert w. induction cs as [|c cs IH]; intros w; simpl.
  - by exists w.
  - unfold mbind, M_bind.
    destruct (run_call_runs_on c w) as (w1 & ->). apply IH.
Qed.

(** *** The string tracks a counter clamped at zero *)

Lemma spaces_app a b : spaces a +:+ spaces b = spaces (a + b).
Proof. induction a as [|a IH]; simpl; [done|]. by rewrite <- IH. Qed.

Lemma spaces_length n : String.length (spaces n) = n.
Proof. induction n as [|n IH]; simpl; [done|]. by rewrite IH. Qed.

Lemma substring_spaces n m :
  (n ≤ m)%nat → String.substring 0 n (spaces m) = spaces n.
Proof.
  revert m. induction n as [|n IH]; intros [|m] H; simpl; try done; try lia.
  rewrite IH; [done|lia].
Qed.

Lemma IncTab_spaces n w :
  tab w = spaces n →
  ∃ w', IncTab w = Running tt w' ∧ tab w' = spaces (n + 3)
        ∧ mMessageLevel w' = mMessageLevel w.
Proof.
  intros H. rewrite IncTab_run. eexists. split; [done|]. simpl.
  rewrite H. split; [|done]. apply (spaces_app n 3).
Qed.

Lemma DecTab_spaces_from_3 n w :
  tab w = spaces n → (3 ≤ n)%nat → Z.of_nat n < 2 ^ size_t_bits →
  DecTab w
  = Running tt (MkWorld (mMessageLevel w) (spaces (n - 3))
                  (trace w ++ [TabAssign (spaces (n - 3))])).
Proof.
  intros H Hn Hbound. unfold DecTab, substr. run.
  rewrite H, spaces_length.
  unfold size_t_wrap. rewrite Z.mod_small by lia.
  destruct (Z.ltb_spec (Z.of_nat n) 0) as [?|_]; [lia|].
  replace (Z.to_nat (Z.min (Z.of_nat n - 3) (Z.of_nat n - 0)))
    with (n - 3)%nat by lia.
  change (Z.to_nat 0) with 0%nat.
  rewrite substring_spaces by lia. reflexivity.
Qed.

Lemma DecTab_spaces d w :
  tab w = spaces (3 * d) → 3 * Z.of_nat d < 2 ^ size_t_bits →
  ∃ w', DecTab w = Running tt w' ∧ tab w' = spaces (3 * (d - 1))
        ∧ mMessageLevel w' = mMessageLevel w.
Proof.
  intros H Hbound. destruct (decide (d = 0%nat)) as [->|Hd].
  - rewrite DecTab_at_zero by done. eexists. done.
  - rewrite (DecTab_spaces_from_3 (3 * d)) by (done || lia).
    eexists. split; [done|]. split; [|done].
    cbn [tab]. f_equal. lia.
Qed.

(** While the tabulation stays below the range of [size_t], the string is
    the rendering of the clamped counter of the spec: [3 * depth] spaces. *)
Lemma run_calls_refines_counter cs d w :
  0 ≤ d → tab w = spaces (3 * Z.to_nat d) →
  3 * (d + Z.of_nat (length cs)) < 2 ^ size_t_bits →
  ∃ w', run_calls cs w = Running tt w'
    ∧ tab w' = spaces (3 * Z.to_nat (depth_after d cs))
    ∧ 0 ≤ depth_after d cs.
Proof.
  revert d w. induction cs as [|c cs IH]; intros d w Hd Htab Hbound.
  - exists w. done.
  - simpl run_calls. unfold mbind, M_bind. simpl length in Hbound.
    destruct c; simpl run_call.
    + destruct (IncTab_spaces _ w Htab) as (w1 & -> & Htab1 & _).
      apply (IH (d + 1)); [lia| |lia].
      rewrite Htab1. f_equal. lia.
    + destruct (DecTab_spaces (Z.to_nat d) w Htab) as (w1 & -> & Htab1 & _);
        [lia|].
      apply (IH (Z.max 0 (d - 1))); [lia| |lia].
      rewrite Htab1. f_equal. lia.
Qed.

Lemma depth_spaces k w :
  0 ≤ k → tab w = spaces (3 * Z.to_nat k) → depth w = k.
Proof.
  intros Hk H. unfold depth. rewrite H, spaces_length.
  replace (Z.of_nat (3 * Z.to_nat k)) with (k * 3) by lia.
  apply Z.div_mul. lia.
Qed.

(** C7. From an empty tabulation every finite sequence of [IncTab] and
    [DecTab] calls runs to its end without an exception and leaves a depth
    that is not negative (as long as the tabulation fits a [size_t], it is
    the depth of a counter clamped at zero); and [DecTab] on the empty
    tabulation returns normally and leaves it empty: [length()-3] wraps to
    a huge count, which [substr] cuts down to the length of the string. *)
Theorem tab_depth_never_negative cs w :
  tab w = "" →
  (∃ w', run_calls cs w = Running tt w' ∧ 0 ≤ depth w'
     ∧ (3 * Z.of_nat (length cs) < 2 ^ size_t_bits →
        depth w' = depth_after 0 cs))
  ∧ (∃ w', DecTab w = Running tt w'
       ∧ tab w' = "" ∧ depth w' = 0
       ∧ mMessageLevel w' = mMessageLevel w).
Proof.
  intros H0. split.
  - destruct (run_calls_runs_on cs w) as (w' & Hrun).
    exists w'. split; [done|]. split.
    + unfold depth. apply Z.div_pos; lia.
    + intros Hbound.
      destruct (run_calls_refines_counter cs 0 w) as (w'' & Hrun' & Htab & Hd);
        [lia|done|lia|].
      rewrite Hrun in Hrun'. injection Hrun' as <-.
      by apply depth_spaces.
  - eexists. split; [by apply DecTab_at_zero|]. done.
Qed.

Lemma tab_depth_never_negative_witness :
  tab w_core = ""
  ∧ (∃ w', run_calls [Decrement; Increment; Decrement; Decrement] w_core
           = Running tt w' ∧ 0 ≤ depth w'
     ∧ (3 * Z.of_nat (length [Decrement; Increment; Decrement; Decrement])
        < 2 ^ size_t_bits →
        depth w'
        = depth_after 0 [Decrement; Increment; Decrement; Decrement]))
  ∧ (∃ w', DecTab w_core = Running tt w'
       ∧ tab w' = "" ∧ depth w' = 0
       ∧ mMessageLevel w' = mMessageLevel w_core).
Proof.
  split; [reflexivity|].
  apply (tab_depth_never_negative
           [Decrement; Increment; Decrement; Decrement] w_core).
  reflexivity.
Defined.

Example unbalanced_DecTab_sample :
  tab (world_of
    (run_calls [Decrement; Increment; Increment; Decrement; Decrement;
                Decrement; Increment] w_core))
  = "   ".
Proof. reflexivity. Qed.

(** ** The variants of the message macro *)

(** C8. When the level filter lets the call through: the continuation
    variant inserts the payload alone (no code, no spaces, no line break);
    the increment variant writes the composed message first and extends the
    tabulation after it; the decrement variant shortens the tabulation first
    and writes the composed message after it. *)
Theorem variants_order_and_prefix loc key T L MESSAGE w :
  mMessageLevel w !! key = Some T → 0 ≤ T → L ≤ T →
  GateMessageCont loc key L MESSAGE w = Running tt (log (Cout MESSAGE) w)
  ∧ (∃ w', GateMessageInc loc key L MESSAGE w = Running tt w'
       ∧ trace w' = trace w ++ [Cout (message_text key L MESSAGE);
                                TabAssign (tab w +:+ "   ")]
       ∧ tab w' = tab w +:+ "   ")
  ∧ (∃ t' w',
       DecTab w = Running tt (MkWorld (mMessageLevel w) t'
                                (trace w ++ [TabAssign t']))
       ∧ GateMessageDec loc key L MESSAGE w = Running tt w'
       ∧ trace w' = trace w ++ [TabAssign t';
                                Cout (message_text key L MESSAGE)]
       ∧ tab w' = t').
Proof.
  intros Hreg HT Hle.
  unfold GateMessageCont, GateMessageInc, GateMessageDec.
  rewrite !(GateOnMessageLevel_pass _ _ _ _ _ T) by done.
  split; [reflexivity|]. split.
  - eexists. split; [reflexivity|]. simpl. by rewrite <- app_assoc.
  - destruct (DecTab_run w) as (t' & Hdec & _).
    exists t'. eexists. split; [exact Hdec|].
    unfold mbind, M_bind. rewrite Hdec. split; [reflexivity|].
    simpl. by rewrite <- app_assoc.
Qed.

Lemma variants_order_and_prefix_witness :
  mMessageLevel w_core !! "Core" = Some 5 ∧ 0 ≤ 5 ∧ 3 ≤ 5
  ∧ trace (world_of (GateMessageCont here "Core" 3 "more" w_core))
    = [Cout "more"]
  ∧ trace (world_of (GateMessageInc here "Core" 3 "begin" w_core))
    = [Cout "[Core-3]    begin"; TabAssign "   "]
  ∧ trace (world_of
      (GateMessageDec here "Core" 3 "end" (with_tab "      " w_core)))
    = [TabAssign "   "; Cout "[Core-3]    end"]
  ∧ GateMessageCont here "Core" 3 "more" w_core
    = Running tt (log (Cout "more") w_core).
Proof.
  split; [reflexivity|]. split; [lia|]. split; [lia|].
  split; [reflexivity|]. split; [reflexivity|]. split; [reflexivity|].
  apply (variants_order_and_prefix here "Core" 5 3 "more" w_core);
    [reflexivity|lia|lia].
Defined.

(** ** The filter guards the tabulation *)

Lemma GateOnMessageLevel_negative loc key value body T w :
  mMessageLevel w !! key = Some T → T < 0 →
  GateOnMessageLevel loc key value body w
  = GateWarning loc ("message type '" +:+ key +:+ "' unknown") w.
Proof.
  intros H HT. unfold GateOnMessageLevel, mbind, M_bind.
  rewrite (GetMessageLevel_registered _ _ _ H).
  by destruct (Z.ltb_spec T 0); [|lia].
Qed.

Lemma GateOnMessageLevel_filtered loc key L body w :
  (mMessageLevel w !! key = None
   ∨ ∃ T, mMessageLevel w !! key = Some T ∧ T < L) →
  ∃ w', GateOnMessageLevel loc key L body w = Running tt w'
    ∧ tab w' = tab w ∧ mMessageLevel w' = mMessageLevel w.
Proof.
  intros [Hnone|(T & Hreg & Hlt)].
  - rewrite GateOnMessageLevel_unknown by done.
    destruct (GateWarning_runs_on loc ("message type '" +:+ key +:+ "' unknown") w)
      as (w' & -> & ? & ?). eauto.
  - destruct (Z.lt_ge_cases T 0) as [Hneg|Hpos].
    + rewrite (GateOnMessageLevel_negative _ _ _ _ T) by done.
      destruct (GateWarning_runs_on loc
                  ("message type '" +:+ key +:+ "' unknown") w)
        as (w' & -> & ? & ?). eauto.
    + rewrite (GateOnMessageLevel_block _ _ _ _ _ T) by (done || lia). eauto.
Qed.

(** C9. When the key is unknown, or the requested level is above the
    threshold of the key, the increment and decrement variants of the
    message macro and the bare [GateIncTab] and [GateDecTab] return with the
    tabulation as it was. *)
Theorem filtered_calls_leave_tab loc key L MESSAGE w :
  (mMessageLevel w !! key = None
   ∨ ∃ T, mMessageLevel w !! key = Some T ∧ T < L) →
  (∃ w', GateMessageInc loc key L MESSAGE w = Running tt w' ∧ tab w' = tab w)
  ∧ (∃ w', GateMessageDec loc key L MESSAGE w = Running tt w'
           ∧ tab w' = tab w)
  ∧ (∃ w', GateIncTab loc key L w = Running tt w' ∧ tab w' = tab w)
  ∧ (∃ w', GateDecTab loc key L w = Running tt w' ∧ tab w' = tab w).
Proof.
  intros H.
  unfold GateMessageInc, GateMessageDec, GateIncTab, GateDecTab.
  repeat split;
    match goal with
    | |- ∃ w', GateOnMessageLevel _ _ _ ?body _ = _ ∧ _ =>
        destruct (GateOnMessageLevel_filtered loc key L body w H)
          as (w' & Hrun & Htab & _); eauto
    end.
Qed.

Lemma filtered_calls_leave_tab_witness :
  (mMessageLevel (with_tab "   " w_core) !! "Core" = None
   ∨ ∃ T, mMessageLevel (with_tab "   " w_core) !! "Core" = Some T ∧ T < 6)
  ∧ tab (world_of (GateIncTab here "Core" 6 (with_tab "   " w_core))) = "   "
  ∧ tab (world_of (GateDecTab here "Physics" 0 (with_tab "   " w_core)))
    = "   "
  ∧ ∃ w', GateMessageInc here "Core" 6 "begin" (with_tab "   " w_core)
          = Running tt w'
      ∧ tab w' = tab (with_tab "   " w_core).
Proof.
  assert (H : mMessageLevel (with_tab "   " w_core) !! "Core" = None
    ∨ ∃ T, mMessageLevel (with_tab "   " w_core) !! "Core" = Some T ∧ T < 6).
  { right. exists 5. split; [reflexivity|lia]. }
  split; [exact H|]. split; [reflexivity|]. split; [reflexivity|].
  apply (filtered_calls_leave_tab here "Core" 6 "begin"
           (with_tab "   " w_core) H).
Defined.

Lemma length_append s1 s2 :
  String.length (s1 +:+ s2) = (String.length s1 + String.length s2)%nat.
Proof.
  induction s1 as [|a s1 IH]; [done|].
  change (S (String.length (s1 +:+ s2))
          = S (String.length s1 + String.length s2)).
  by rewrite IH.
Qed.

(** When the filter lets the call through, the bare calls do move the
    tabulation. *)
Lemma GateIncTab_permitted loc key T L w :
  mMessageLevel w !! key = Some T → 0 ≤ T → L ≤ T →
  ∃ w', GateIncTab loc key L w = Running tt w'
    ∧ tab w' = tab w +:+ "   " ∧ tab w' ≠ tab w.
Proof.
  intros Hreg HT Hle. unfold GateIncTab.
  rewrite (GateOnMessageLevel_pass _ _ _ _ _ T) by done.
  rewrite IncTab_run. eexists. split; [done|]. split; [done|].
  simpl. intros Heq. apply (f_equal String.length) in Heq.
  rewrite length_append in Heq. simpl in Heq. lia.
Qed.

(** * Further properties of the header *)

(** ** Strings *)

Lemma append_cons a s t : String a s +:+ t = String a (s +:+ t).
Proof. reflexivity. Qed.

Lemma append_assoc s t u : (s +:+ t) +:+ u = s +:+ (t +:+ u).
Proof.
  induction s as [|a s IH]; [done|].
  rewrite !append_cons. by rewrite IH.
Qed.

Lemma substring_prefix t s :
  String.substring 0 (String.length t) (t +:+ s) = t.
Proof.
  induction t as [|a t IH]; [by destruct s|].
  rewrite append_cons. simpl. by rewrite IH.
Qed.

Lemma substring_all t : String.substring 0 (String.length t) t = t.
Proof. induction t as [|a t IH]; [done|]. simpl. by rewrite IH. Qed.

(** ** [IncTab] and [DecTab] on arbitrary strings *)

(** [DecTab] removes the last three characters, whatever they are. *)
Lemma DecTab_after_suffix t sfx w :
  tab w = t +:+ sfx → String.length sfx = 3%nat →
  Z.of_nat (String.length t) + 3 < 2 ^ size_t_bits →
  DecTab w
  = Running tt (MkWorld (mMessageLevel w) t (trace w ++ [TabAssign t])).
Proof.
  intros H Hsfx Hbound. unfold DecTab, substr. run.
  rewrite H, length_append, Hsfx.
  unfold size_t_wrap. rewrite Z.mod_small by lia.
  destruct (Z.ltb_spec (Z.of_nat (String.length t + 3)) 0) as [?|_]; [lia|].
  replace (Z.to_nat (Z.min (Z.of_nat (String.length t + 3) - 3)
                           (Z.of_nat (String.length t + 3) - 0)))
    with (String.length t) by lia.
  change (Z.to_nat 0) with 0%nat.
  by rewrite substring_prefix.
Qed.

(** X1. [DecTab] undoes [IncTab]: whatever the tabulation holds (as long as
    three more characters fit a [size_t]), [IncTab] followed by [DecTab]
    returns normally with the tabulation and the level map as before. *)
Theorem IncTab_DecTab_round_trip w :
  Z.of_nat (String.length (tab w)) + 3 < 2 ^ size_t_bits →
  ∃ w', (IncTab;; DecTab) w = Running tt w'
    ∧ tab w' = tab w
    ∧ mMessageLevel w' = mMessageLevel w.
Proof.
  intros Hbound. unfold mbind at 1, M_bind at 1. rewrite IncTab_run.
  rewrite (DecTab_after_suffix (tab w) "   ") by done.
  eexists. done.
Qed.

Lemma IncTab_DecTab_round_trip_witness :
  Z.of_nat (String.length (tab (with_tab "->" w_core))) + 3 < 2 ^ size_t_bits
  ∧ ∃ w', (IncTab;; DecTab) (with_tab "->" w_core) = Running tt w'
      ∧ tab w' = tab (with_tab "->" w_core)
      ∧ mMessageLevel w' = mMessageLevel (with_tab "->" w_core).
Proof.
  split; [reflexivity|].
  apply (IncTab_DecTab_round_trip (with_tab "->" w_core)). reflexivity.
Defined.

(** X2. A tabulation shorter than three characters is out of reach of
    [DecTab]: the wrapped count exceeds the length, so the call returns
    normally and the string stays as it is (it is not emptied). The other
    order of the pair is therefore no round trip there: [DecTab] followed
    by [IncTab] leaves three characters more than before. *)
Theorem DecTab_short_tab_unchanged w :
  (String.length (tab w) < 3)%nat →
  (∃ w', DecTab w = Running tt w' ∧ tab w' = tab w)
  ∧ (∃ w', (DecTab;; IncTab) w = Running tt w'
       ∧ tab w' = tab w +:+ "   ").
Proof.
  intros Hlen.
  assert (Hdec : DecTab w
    = Running tt (MkWorld (mMessageLevel w) (tab w)
                    (trace w ++ [TabAssign (tab w)]))).
  { unfold DecTab, substr. run.
    destruct (tab w) as [|a [|b [|c t]]]; simpl in Hlen; try lia;
      reflexivity. }
  split.
  - eexists. split; [exact Hdec|done].
  - unfold mbind at 1, M_bind at 1. rewrite Hdec, IncTab_run.
    eexists. done.
Qed.

Lemma DecTab_short_tab_unchanged_witness :
  (String.length (tab (with_tab "->" w_core)) < 3)%nat
  ∧ (∃ w', DecTab (with_tab "->" w_core) = Running tt w'
       ∧ tab w' = tab (with_tab "->" w_core))
  ∧ (∃ w', (DecTab;; IncTab) (with_tab "->" w_core) = Running tt w'
       ∧ tab w' = tab (with_tab "->" w_core) +:+ "   ").
Proof.
  assert (H : (String.length (tab (with_tab "->" w_core)) < 3)%nat).
  { simpl. lia. }
  split; [exact H|].
  apply (DecTab_short_tab_unchanged (with_tab "->" w_core) H).
Defined.

(** ** The branch a gated call takes *)

Lemma GateOnMessageLevel_verdict loc key value body w :
  GateOnMessageLevel loc key value body w
  = match gate_verdict w key value with
    | Pass => body w
    | Filtered => Running tt w
    | Unknown => GateWarning loc ("message type '" +:+ key +:+ "' unknown") w
    end.
Proof.
  unfold GateOnMessageLevel, gate_verdict, GetMessageLevel, mbind, M_bind.
  destruct (default (-1) (mMessageLevel w !! key) <? 0); [done|].
  by destruct (value <=? default (-1) (mMessageLevel w !! key)).
Qed.

Lemma gate_verdict_levels w1 w2 key value :
  mMessageLevel w1 = mMessageLevel w2 →
  gate_verdict w1 key value = gate_verdict w2 key value.
Proof. intros H. unfold gate_verdict. by rewrite H. Qed.

Lemma gate_verdict_pass w key value T :
  mMessageLevel w !! key = Some T → 0 ≤ T → value ≤ T →
  gate_verdict w key value = Pass.
Proof.
  intros H HT Hle. unfold gate_verdict. rewrite H. simpl.
  destruct (Z.ltb_spec T 0); [lia|].
  by destruct (Z.leb_spec value T); [|lia].
Qed.

Lemma gate_verdict_filtered w key value T :
  mMessageLevel w !! key = Some T → 0 ≤ T → T < value →
  gate_verdict w key value = Filtered.
Proof.
  intros H HT Hlt. unfold gate_verdict. rewrite H. simpl.
  destruct (Z.ltb_spec T 0); [lia|].
  by destruct (Z.leb_spec value T); [lia|].
Qed.

(** ** Pairs of increment and decrement calls *)

(** X3. A [GateMessageInc] and a [GateMessageDec] for the same key and
    level are balanced whatever the filter decides: both pass, both are
    filtered or both warn, and the pair returns with the tabulation it
    found (as long as three more characters fit a [size_t]). *)
Theorem balanced_Inc_Dec_restores_tab loc1 loc2 key L M1 M2 w :
  Z.of_nat (String.length (tab w)) + 3 < 2 ^ size_t_bits →
  ∃ w', (GateMessageInc loc1 key L M1;; GateMessageDec loc2 key L M2) w
        = Running tt w'
    ∧ tab w' = tab w
    ∧ mMessageLevel w' = mMessageLevel w.
Proof.
  intros Hbound. unfold mbind at 1, M_bind at 1.
  unfold GateMessageInc, GateMessageDec.
  rewrite GateOnMessageLevel_verdict.
  destruct (gate_verdict w key L) eqn:V.
  - unfold mbind at 1, M_bind at 1, cout at 1. rewrite IncTab_run.
    set (w1 := MkWorld _ _ _).
    rewrite GateOnMessageLevel_verdict.
    rewrite (gate_verdict_levels w1 w) by done. rewrite V.
    unfold mbind, M_bind.
    rewrite (DecTab_after_suffix (tab w) "   ") by done.
    eexists. split; [reflexivity|]. done.
  - rewrite GateOnMessageLevel_verdict, V. eexists. done.
  - rewrite GateWarning_trace. set (w1 := MkWorld _ _ _).
    rewrite GateOnMessageLevel_verdict.
    rewrite (gate_verdict_levels w1 w) by done. rewrite V.
    rewrite GateWarning_trace. eexists. done.
Qed.

Lemma balanced_Inc_Dec_restores_tab_witness :
  Z.of_nat (String.length (tab w_core)) + 3 < 2 ^ size_t_bits
  ∧ ∃ w', (GateMessageInc here "Core" 3 "begin";;
           GateMessageDec here "Core" 3 "end") w_core
          = Running tt w'
      ∧ tab w' = tab w_core
      ∧ mMessageLevel w' = mMessageLevel w_core.
Proof.
  split; [reflexivity|].
  apply (balanced_Inc_Dec_restores_tab here here "Core" 3 "begin" "end"
           w_core).
  reflexivity.
Defined.

(** X4. The pair is not balanced when its levels differ: if the increment
    passes the filter ([L1 <= T]) and the decrement does not ([T < L2]),
    the pair leaves the tabulation one unit longer than it found it. *)
Theorem mismatched_levels_leak_a_unit loc1 loc2 key T L1 L2 M1 M2 w :
  mMessageLevel w !! key = Some T → 0 ≤ T → L1 ≤ T → T < L2 →
  ∃ w', (GateMessageInc loc1 key L1 M1;; GateMessageDec loc2 key L2 M2) w
        = Running tt w'
    ∧ tab w' = tab w +:+ "   "
    ∧ couts (trace w') = couts (trace w) ++ [message_text key L1 M1].
Proof.
  intros Hreg HT H1 H2. unfold mbind at 1, M_bind at 1.
  unfold GateMessageInc, GateMessageDec.
  rewrite GateOnMessageLevel_verdict, (gate_verdict_pass _ _ _ T) by done.
  unfold mbind at 1, M_bind at 1, cout at 1. rewrite IncTab_run.
  set (w1 := MkWorld _ _ _).
  rewrite GateOnMessageLevel_verdict.
  rewrite (gate_verdict_filtered w1 _ _ T) by done.
  eexists. split; [reflexivity|]. split; [done|].
  unfold w1, log. simpl.
  induction (trace w) as [|e tr IH]; [done|].
  destruct e; simpl; by rewrite IH.
Qed.

Lemma mismatched_levels_leak_a_unit_witness :
  mMessageLevel w_core !! "Core" = Some 5 ∧ 0 ≤ 5 ∧ 3 ≤ 5 ∧ 5 < 7
  ∧ ∃ w', (GateMessageInc here "Core" 3 "begin";;
           GateMessageDec here "Core" 7 "end") w_core
          = Running tt w'
      ∧ tab w' = tab w_core +:+ "   "
      ∧ couts (trace w')
        = couts (trace w_core) ++ [message_text "Core" 3 "begin"].
Proof.
  split; [reflexivity|]. split; [lia|]. split; [lia|]. split; [lia|].
  apply (mismatched_levels_leak_a_unit here here "Core" 5 3 7 "begin" "end"
           w_core); [reflexivity|lia|lia|lia].
Defined.

(** ** Programs of macro calls *)

Lemma couts_app tr1 tr2 : couts (tr1 ++ tr2) = couts tr1 ++ couts tr2.
Proof.
  induction tr1 as [|e tr1 IH]; [done|].
  destruct e; simpl; by rewrite IH.
Qed.

(** *** They return, and only append *)

Lemma runs_on_ret : runs_on (mret tt).
Proof. intros w. exists w, []. by rewrite app_nil_r. Qed.

Lemma runs_on_cout text : runs_on (cout text).
Proof. intros w. eexists _, [_]. done. Qed.

Lemma runs_on_SetTab s : runs_on (SetTab s).
Proof. intros w. eexists _, [_]. done. Qed.

Lemma runs_on_IncTab : runs_on IncTab.
Proof. intros w. rewrite IncTab_run. eexists _, [_]. done. Qed.

Lemma runs_on_DecTab : runs_on DecTab.
Proof.
  intros w. destruct (DecTab_run w) as (t' & -> & _). eexists _, [_]. done.
Qed.

Lemma runs_on_bind m k : runs_on m → runs_on k → runs_on (m;; k).
Proof.
  intros Hm Hk w. unfold mbind, M_bind.
  destruct (Hm w) as (w1 & new1 & -> & Hl1 & Ht1).
  destruct (Hk w1) as (w2 & new2 & -> & Hl2 & Ht2).
  exists w2, (new1 ++ new2). split; [done|]. split; [congruence|].
  by rewrite Ht2, Ht1, app_assoc.
Qed.

Lemma runs_on_GateWarning loc MESSAGE : runs_on (GateWarning loc MESSAGE).
Proof. intros w. rewrite GateWarning_trace. eexists _, _. done. Qed.

Lemma runs_on_gate loc key value body :
  runs_on body → runs_on (GateOnMessageLevel loc key value body).
Proof.
  intros Hbody w. rewrite GateOnMessageLevel_verdict.
  destruct (gate_verdict w key value).
  - apply Hbody.
  - apply runs_on_ret.
  - apply runs_on_GateWarning.
Qed.

Lemma runs_on_exec loc c : runs_on (exec loc c).
Proof.
  destruct c; simpl;
    unfold GateMessage, GateMessageCont, GateMessageInc, GateMessageDec,
      GateIncTab, GateDecTab, GateResetTab, ResetTab;
    auto using runs_on_gate, runs_on_bind, runs_on_cout, runs_on_IncTab,
      runs_on_DecTab, runs_on_SetTab, runs_on_GateWarning.
Qed.

(** X5. No sequence of message, tabulation and warning calls ends the
    process, throws, changes a level or takes back what was written: the
    program returns normally, the level map is the one it started with and
    the old trace is a prefix of the new one. *)
Theorem programs_run_on prog w :
  ∃ w' new,
    exec_all prog w = Running tt w'
    ∧ mMessageLevel w' = mMessageLevel w
    ∧ trace w' = trace w ++ new.
Proof.
  revert w. induction prog as [|[loc c] prog IH]; intros w.
  - apply runs_on_ret.
  - simpl exec_all. apply runs_on_bind; [apply runs_on_exec|exact IH].
Qed.

(** *** The tabulation stays a whole number of units *)

Lemma keeps_units_same m :
  (∀ w, ∃ w', m w = Running tt w' ∧ tab w' = tab w) → keeps_units m.
Proof.
  intros H d w Htab _. destruct (H w) as (w' & -> & Ht).
  exists w', d. split; [done|]. split; [congruence|lia].
Qed.

Lemma keeps_units_inc m :
  (∀ w, ∃ w', m w = Running tt w' ∧ tab w' = tab w +:+ "   ") →
  keeps_units m.
Proof.
  intros H d w Htab _. destruct (H w) as (w' & -> & Ht).
  exists w', (d + 1)%nat. split; [done|]. split; [|lia].
  rewrite Ht, Htab. change "   " with (spaces 3).
  rewrite spaces_app. f_equal. lia.
Qed.

Lemma keeps_units_DecTab_then text : keeps_units (DecTab;; cout text).
Proof.
  intros d w Htab Hbound. unfold mbind, M_bind.
  destruct (DecTab_spaces d w Htab Hbound) as (w1 & -> & Ht & _).
  eexists _, (d - 1)%nat. split; [reflexivity|]. split; [done|lia].
Qed.

Lemma keeps_units_DecTab : keeps_units DecTab.
Proof.
  intros d w Htab Hbound.
  destruct (DecTab_spaces d w Htab Hbound) as (w1 & -> & Ht & _).
  exists w1, (d - 1)%nat. split; [done|]. split; [done|lia].
Qed.

Lemma keeps_units_gate loc key value body :
  keeps_units body → keeps_units (GateOnMessageLevel loc key value body).
Proof.
  intros Hbody d w Htab Hbound. rewrite GateOnMessageLevel_verdict.
  destruct (gate_verdict w key value).
  - by apply Hbody.
  - exists w, d. split; [done|]. split; [done|lia].
  - rewrite GateWarning_trace. eexists _, d.
    split; [reflexivity|]. split; [done|lia].
Qed.

Lemma keeps_units_exec loc c : keeps_units (exec loc c).
Proof.
  destruct c; simpl;
    unfold GateMessage, GateMessageCont, GateMessageInc, GateMessageDec,
      GateIncTab, GateDecTab, GateResetTab, ResetTab.
  - apply keeps_units_gate, keeps_units_same. intros w. eexists. done.
  - apply keeps_units_gate, keeps_units_same. intros w. eexists. done.
  - apply keeps_units_gate, keeps_units_inc. intros w. eexists. done.
  - apply keeps_units_gate, keeps_units_DecTab_then.
  - apply keeps_units_gate, keeps_units_inc. intros w. eexists. done.
  - apply keeps_units_gate, keeps_units_DecTab.
  - intros d w _ _. eexists _, 0%nat. split; [reflexivity|].
    split; [done|lia].
  - apply keeps_units_same. intros w. rewrite GateWarning_trace.
    eexists. done.
Qed.

(** X6. Through the macros the tabulation only ever holds whole units of
    three spaces: a program started on [d] units ends, for some [k], on [k]
    units, with [k] at most [d] plus the number of calls (as long as that
    many units fit a [size_t]). *)
Theorem programs_keep_whole_units prog d w :
  tab w = spaces (3 * d) →
  3 * (Z.of_nat d + Z.of_nat (length prog)) < 2 ^ size_t_bits →
  ∃ w' k, exec_all prog w = Running tt w'
    ∧ tab w' = spaces (3 * k)
    ∧ (k ≤ d + length prog)%nat.
Proof.
  revert d w. induction prog as [|[loc c] prog IH]; intros d w Htab Hbound.
  - exists w, d. split; [done|]. split; [done|simpl; lia].
  - simpl exec_all. simpl length in Hbound. unfold mbind, M_bind.
    destruct (keeps_units_exec loc c d w Htab) as (w1 & k1 & -> & Ht1 & Hk1);
      [lia|].
    destruct (IH k1 w1 Ht1) as (w' & k & Hrun & Ht & Hk); [lia|].
    exists w', k. split; [done|]. split; [done|]. simpl. lia.
Qed.

Lemma programs_keep_whole_units_witness :
  tab w_core = spaces (3 * 0)
  ∧ 3 * (Z.of_nat 0
         + Z.of_nat (length [(here, CallMessageDec "Core" 1 "end");
                             (here, CallIncTab "Core" 2);
                             (here, CallMessageInc "Physics" 0 "begin");
                             (here, CallMessageInc "Core" 5 "begin")]))
    < 2 ^ size_t_bits
  ∧ ∃ w' k,
      exec_all [(here, CallMessageDec "Core" 1 "end");
                (here, CallIncTab "Core" 2);
                (here, CallMessageInc "Physics" 0 "begin");
                (here, CallMessageInc "Core" 5 "begin")] w_core
      = Running tt w'
      ∧ tab w' = spaces (3 * k)
      ∧ (k ≤ 0 + length [(here, CallMessageDec "Core" 1 "end");
                         (here, CallIncTab "Core" 2);
                         (here, CallMessageInc "Physics" 0 "begin");
                         (here, CallMessageInc "Core" 5 "begin")])%nat.
Proof.
  split; [reflexivity|]. split; [reflexivity|].
  apply (programs_keep_whole_units _ 0%nat w_core); reflexivity.
Defined.

(** *** The output does not see the tabulation *)

Lemma same_output_log text w1 w2 :
  same_output w1 w2 → same_output (log (Cout text) w1) (log (Cout text) w2).
Proof.
  intros [Hl Hc]. split; [done|]. simpl. rewrite !couts_app. by rewrite Hc.
Qed.

Lemma same_output_tab s1 s2 w1 w2 :
  same_output w1 w2 →
  same_output (MkWorld (mMessageLevel w1) s1 (trace w1 ++ [TabAssign s1]))
              (MkWorld (mMessageLevel w2) s2 (trace w2 ++ [TabAssign s2])).
Proof.
  intros [Hl Hc]. split; [done|]. simpl. rewrite !couts_app. by rewrite Hc.
Qed.

Lemma tab_blind_ret : tab_blind (mret tt).
Proof. intros w1 w2 H. by exists w1, w2. Qed.

Lemma tab_blind_cout text : tab_blind (cout text).
Proof.
  intros w1 w2 H. eexists _, _. split; [reflexivity|].
  split; [reflexivity|]. by apply same_output_log.
Qed.

Lemma tab_blind_SetTab s : tab_blind (SetTab s).
Proof.
  intros w1 w2 H. eexists _, _. split; [reflexivity|].
  split; [reflexivity|]. by apply same_output_tab.
Qed.

Lemma tab_blind_IncTab : tab_blind IncTab.
Proof.
  intros w1 w2 H. rewrite !IncTab_run. eexists _, _.
  split; [reflexivity|]. split; [reflexivity|]. by apply same_output_tab.
Qed.

Lemma tab_blind_DecTab : tab_blind DecTab.
Proof.
  intros w1 w2 H.
  destruct (DecTab_run w1) as (t1 & -> & _).
  destruct (DecTab_run w2) as (t2 & -> & _).
  eexists _, _. split; [reflexivity|]. split; [reflexivity|].
  by apply same_output_tab.
Qed.

Lemma tab_blind_bind m k : tab_blind m → tab_blind k → tab_blind (m;; k).
Proof.
  intros Hm Hk w1 w2 H. unfold mbind, M_bind.
  destruct (Hm w1 w2 H) as (w1' & w2' & -> & -> & H').
  by apply Hk.
Qed.

Lemma tab_blind_GateWarning loc MESSAGE : tab_blind (GateWarning loc MESSAGE).
Proof.
  intros w1 w2 [Hl Hc]. rewrite !GateWarning_trace. eexists _, _.
  split; [reflexivity|]. split; [reflexivity|].
  split; [done|]. simpl. rewrite !couts_app.
  unfold WarningLevel. by rewrite Hc, Hl.
Qed.

Lemma tab_blind_gate loc key value body :
  tab_blind body → tab_blind (GateOnMessageLevel loc key value body).
Proof.
  intros Hbody w1 w2 H. rewrite !GateOnMessageLevel_verdict.
  rewrite (gate_verdict_levels w1 w2) by apply H.
  destruct (gate_verdict w2 key value).
  - by apply Hbody.
  - by apply tab_blind_ret.
  - by apply tab_blind_GateWarning.
Qed.

Lemma tab_blind_exec loc c : tab_blind (exec loc c).
Proof.
  destruct c; simpl;
    unfold GateMessage, GateMessageCont, GateMessageInc, GateMessageDec,
      GateIncTab, GateDecTab, GateResetTab, ResetTab;
    auto using tab_blind_gate, tab_blind_bind, tab_blind_cout,
      tab_blind_IncTab, tab_blind_DecTab, tab_blind_SetTab,
      tab_blind_GateWarning.
Qed.

Lemma tab_blind_exec_all prog : tab_blind (exec_all prog).
Proof.
  induction prog as [|[loc c] prog IH]; simpl.
  - apply tab_blind_ret.
  - apply tab_blind_bind; [apply tab_blind_exec|exact IH].
Qed.

(** X7. What a program of message, tabulation and warning calls writes to
    [std::cout] is the same whatever the tabulation holds when it starts:
    no macro of the header inserts the tabulation into the stream. *)
Theorem program_output_ignores_tab prog t w :
  couts (trace (world_of (exec_all prog (with_tab t w))))
  = couts (trace (world_of (exec_all prog w)))
  ∧ stdout (trace (world_of (exec_all prog (with_tab t w))))
    = stdout (trace (world_of (exec_all prog w))).
Proof.
  assert (H : same_output (with_tab t w) w) by done.
  destruct (tab_blind_exec_all prog _ _ H) as (w1 & w2 & -> & -> & _ & Hc).
  simpl. unfold stdout. by rewrite Hc.
Qed.

(** ** Messages split over several calls *)

Lemma append_nil_r s : s +:+ "" = s.
Proof.
  induction s as [|a s IH]; [done|]. rewrite append_cons. by rewrite IH.
Qed.

Lemma stdout_app tr1 tr2 : stdout (tr1 ++ tr2) = stdout tr1 +:+ stdout tr2.
Proof.
  unfold stdout. rewrite couts_app.
  induction (couts tr1) as [|t l IH]; [done|].
  simpl. by rewrite IH, append_assoc.
Qed.

(** X8. For a registered key, a message split into [GateMessage] and a
    [GateMessageCont] at the same level puts the same text on [std::cout]
    as one [GateMessage] carrying both payloads: both calls pass or both
    are filtered, and the continuation adds no prefix of its own. *)
Theorem GateMessage_Cont_splits_payload loc1 loc2 key T L M1 M2 w :
  mMessageLevel w !! key = Some T → 0 ≤ T →
  stdout (trace (world_of
    ((GateMessage loc1 key L M1;; GateMessageCont loc2 key L M2) w)))
  = stdout (trace (world_of (GateMessage loc1 key L (M1 +:+ M2) w))).
Proof.
  intros Hreg HT. unfold mbind, M_bind, GateMessage, GateMessageCont.
  rewrite !GateOnMessageLevel_verdict.
  destruct (Z.le_gt_cases L T) as [Hle|Hgt].
  - rewrite (gate_verdict_pass w _ _ T) by done.
    unfold cout at 1. rewrite GateOnMessageLevel_verdict.
    rewrite (gate_verdict_pass (log _ w) _ _ T) by done.
    unfold cout, log. simpl. rewrite !stdout_app.
    unfold stdout. simpl. rewrite !append_nil_r.
    unfold message_text. by rewrite !append_assoc.
  - rewrite (gate_verdict_filtered w _ _ T) by done.
    rewrite GateOnMessageLevel_verdict.
    by rewrite (gate_verdict_filtered w _ _ T) by done.
Qed.

Lemma GateMessage_Cont_splits_payload_witness :
  mMessageLevel w_core !! "Core" = Some 5 ∧ 0 ≤ 5
  ∧ stdout (trace (world_of
      ((GateMessage here "Core" 2 "volume ";;
        GateMessageCont here "Core" 2 "world") w_core)))
    = stdout (trace (world_of
        (GateMessage here "Core" 2 ("volume " +:+ "world") w_core))).
Proof.
  split; [reflexivity|]. split; [lia|].
  apply (GateMessage_Cont_splits_payload here here "Core" 5 2
           "volume " "world" w_core); [reflexivity|lia].
Defined.

(** ** The [DD] macro *)

(** X9. [DD] is a "Core" message of level 0, and level 0 passes every
    threshold: whenever "Core" is registered, at whatever level, [DD(a)]
    writes the line "[Core-0] a = [ value ]" and changes nothing else. *)
Theorem DD_prints_whenever_Core_registered loc a_text a_value T w :
  mMessageLevel w !! "Core" = Some T → 0 ≤ T →
  DD loc a_text a_value w
  = Running tt
      (log (Cout ("[Core-0] " +:+ a_text +:+ " = [ " +:+ a_value +:+ " ]"
                  +:+ Gateendl)) w).
Proof.
  intros Hreg HT. unfold DD, GateMessage.
  rewrite (GateOnMessageLevel_pass _ _ _ _ _ T) by done.
  reflexivity.
Qed.

Lemma DD_prints_whenever_Core_registered_witness :
  mMessageLevel w_core !! "Core" = Some 5 ∧ 0 ≤ 5
  ∧ DD here "nbOfEvents" "12" w_core
    = Running tt
        (log (Cout ("[Core-0] " +:+ "nbOfEvents" +:+ " = [ " +:+ "12" +:+ " ]"
                    +:+ Gateendl)) w_core).
Proof.
  split; [reflexivity|]. split; [lia|].
  apply (DD_prints_whenever_Core_registered here "nbOfEvents" "12" 5 w_core);
    [reflexivity|lia].
Defined.

(** ** [__SHORT_FILE__] *)

Lemma strrchr_absent c s :
  ¬ In c (list_ascii_of_string s) → strrchr s c = None.
Proof.
  induction s as [|a s IH]; [done|]. simpl. intros Hnot.
  rewrite IH by tauto.
  destruct (Ascii.eqb_spec a c) as [->|?]; [tauto|done].
Qed.

Lemma strrchr_last c pre s :
  ¬ In c (list_ascii_of_string s) →
  strrchr (pre +:+ String c s) c = Some (String c s).
Proof.
  intros Hnot. induction pre as [|a pre IH].
  - change ("" +:+ String c s) with (String c s). simpl.
    rewrite strrchr_absent by done. by rewrite Ascii.eqb_refl.
  - rewrite append_cons. simpl. by rewrite IH.
Qed.

(** X10. [__SHORT_FILE__] gives back the file name a path ends in: for a
    name without '/', the short form of [dir/name] is [name], whatever
    [dir] is (slashes included), and the short form of [name] alone is
    [name]. *)
Theorem SHORT_FILE_of_path dir name line :
  ¬ In "/"%char (list_ascii_of_string name) →
  __SHORT_FILE__ (MkLoc (dir +:+ "/" +:+ name) line) = name
  ∧ __SHORT_FILE__ (MkLoc name line) = name.
Proof.
  intros Hnot. unfold __SHORT_FILE__. simpl __FILE__. split.
  - change (dir +:+ "/" +:+ name) with (dir +:+ String "/" name).
    by rewrite strrchr_last.
  - by rewrite strrchr_absent.
Qed.

Lemma SHORT_FILE_of_path_witness :
  ¬ In "/"%char (list_ascii_of_string "GateActor.cc")
  ∧ __SHORT_FILE__
      (MkLoc ("source/digits_hits/src" +:+ "/" +:+ "GateActor.cc") 42)
    = "GateActor.cc"
  ∧ __SHORT_FILE__ (MkLoc "GateActor.cc" 42) = "GateActor.cc".
Proof.
  assert (H : ¬ In "/"%char (list_ascii_of_string "GateActor.cc")).
  { simpl. intros Hin. repeat destruct Hin as [Hin|Hin]; try discriminate.
    exact Hin. }
  split; [exact H|].
  apply (SHORT_FILE_of_path "source/digits_hits/src" "GateActor.cc" 42 H).
Defined.

(** ** Tabulation calls for an unknown key *)

(** X11. [GateIncTab] and [GateDecTab] do write to [std::cout] when their
    key is not registered: with warnings enabled each call puts one
    "message type unknown" warning on the output, and leaves the
    tabulation alone. *)
Theorem bare_tab_calls_warn_on_unknown_key loc key L w :
  mMessageLevel w !! key = None → 1 ≤ WarningLevel w →
  (∃ w', GateIncTab loc key L w = Running tt w'
     ∧ tab w' = tab w
     ∧ count_unknown_warnings key (trace w')
       = S (count_unknown_warnings key (trace w)))
  ∧ (∃ w', GateDecTab loc key L w = Running tt w'
       ∧ tab w' = tab w
       ∧ count_unknown_warnings key (trace w')
         = S (count_unknown_warnings key (trace w))).
Proof.
  intros Hkey Hlev. unfold GateIncTab, GateDecTab.
  rewrite !GateOnMessageLevel_unknown by done.
  rewrite GateWarning_trace.
  assert (Hcnt : count_unknown_warnings key
            (trace w ++ map Cout (warning_lines loc (WarningLevel w)
                                    ("message type '" +:+ key +:+ "' unknown")))
          = S (count_unknown_warnings key (trace w))).
  { rewrite count_unknown_warnings_app, count_unknown_warnings_one_call.
    destruct (Z.ltb_spec 0 (WarningLevel w)); lia. }
  split; eexists; (split; [reflexivity|]); split; done.
Qed.

Lemma bare_tab_calls_warn_on_unknown_key_witness :
  mMessageLevel w_core !! "Physics" = None ∧ 1 ≤ WarningLevel w_core
  ∧ (∃ w', GateIncTab here "Physics" 0 w_core = Running tt w'
       ∧ tab w' = tab w_core
       ∧ count_unknown_warnings "Physics" (trace w')
         = S (count_unknown_warnings "Physics" (trace w_core)))
  ∧ (∃ w', GateDecTab here "Physics" 0 w_core = Running tt w'
       ∧ tab w' = tab w_core
       ∧ count_unknown_warnings "Physics" (trace w')
         = S (count_unknown_warnings "Physics" (trace w_core))).
Proof.
  split; [reflexivity|]. split; [vm_compute; discriminate|].
  apply (bare_tab_calls_warn_on_unknown_key here "Physics" 0 w_core);
    [reflexivity|vm_compute; discriminate].
Defined.

(** ** The filter is monotone *)

(** X12. The filter is monotone in both arguments: if a message of level
    [L1] is written while the threshold of its key is [T1], then a message
    of any level [L2 <= L1] for that key is written under any threshold
    [T2 >= T1]. Raising a threshold never hides a message, and a more
    important message is never hidden while a less important one shows. *)
Theorem GateMessage_monotone loc1 loc2 key T1 T2 L1 L2 M1 M2 w1 w2 :
  mMessageLevel w1 !! key = Some T1 → mMessageLevel w2 !! key = Some T2 →
  0 ≤ T1 → T1 ≤ T2 → L2 ≤ L1 →
  GateMessage loc1 key L1 M1 w1
  = Running tt (log (Cout (message_text key L1 M1)) w1) →
  GateMessage loc2 key L2 M2 w2
  = Running tt (log (Cout (message_text key L2 M2)) w2).
Proof.
  intros H1 H2 HT HTT HL Hemit. unfold GateMessage in *.
  destruct (Z.le_gt_cases L1 T1) as [Hle|Hgt].
  - by rewrite (GateOnMessageLevel_pass _ _ _ _ _ T2) by (done || lia).
  - rewrite (GateOnMessageLevel_block _ _ _ _ _ T1) in Hemit by done.
    injection Hemit as Hemit. symmetry in Hemit. by apply log_neq in Hemit.
Qed.

Lemma GateMessage_monotone_witness :
  mMessageLevel w_core !! "Core" = Some 5
  ∧ mMessageLevel w_deep !! "Core" = Some 7
  ∧ 0 ≤ 5 ∧ 5 ≤ 7 ∧ 2 ≤ 5
  ∧ GateMessage here "Core" 5 "detail" w_core
    = Running tt (log (Cout (message_text "Core" 5 "detail")) w_core)
  ∧ GateMessage here "Core" 2 "summary" w_deep
    = Running tt (log (Cout (message_text "Core" 2 "summary")) w_deep).
Proof.
  split; [reflexivity|]. split; [reflexivity|].
  split; [lia|]. split; [lia|]. split; [lia|]. split; [reflexivity|].
  apply (GateMessage_monotone here here "Core" 5 7 5 2 "detail" "summary"
           w_core w_deep); [reflexivity|reflexivity|lia|lia|lia|
                            reflexivity].
Defined.
